(** * A shallow embedding of [app.py], the Flask front end of the medical chatbot

  The module validates two environment variables, wires a retrieval chain
  at import time and serves three routes.  Everything the file computes
  itself is string handling and control flow, so the embedding is:

  - Python [str] values as lists of Unicode code points;
  - [os.environ] and the chain's result dictionary as finite maps;
  - the request form as an ordered multi-dictionary;
  - exceptions as values of an explicit class hierarchy, with a small
    state-and-exception monad for the handlers;
  - the third-party services (vector index, model) as an oracle that the
    handlers may query through [rag_chain.invoke] only. *)

From Stdlib Require Import ZArith NArith List Ascii String Lia.
From stdpp Require Import base option list gmap strings.

Set Default Proof Using "Type".
Open Scope N_scope.

(** ** Python strings *)

Module PyStr.

(** A [str] is a sequence of code points.  String literals of the source
    are written [lit "..."]; every literal of [app.py] that is used here is
    ASCII, so a literal's code points are its bytes. *)
Abbreviation pystr := (list N).

Definition lit (s : string) : pystr :=
  map N_of_ascii (list_ascii_of_string s).

(** [Py_UNICODE_ISSPACE]: the characters [str.strip()] removes when it is
    called without an argument. *)
Definition isspace (c : N) : bool :=
     ((0x09 <=? c) && (c <=? 0x0D))
  || ((0x1C <=? c) && (c <=? 0x20))
  || (c =? 0x85) || (c =? 0xA0) || (c =? 0x1680)
  || ((0x2000 <=? c) && (c <=? 0x200A))
  || (c =? 0x2028) || (c =? 0x2029) || (c =? 0x202F)
  || (c =? 0x205F) || (c =? 0x3000).

Fixpoint drop_while {A} (p : A → bool) (l : list A) : list A :=
  match l with
  | [] => []
  | x :: l' => if p x then drop_while p l' else l
  end.

(** [str.lstrip()], [str.rstrip()] and [str.strip()]: the left index moves
    right over whitespace, then the right index moves left over
    whitespace, never past the left one. *)
Definition lstrip (s : pystr) : pystr := drop_while isspace s.
Definition rstrip (s : pystr) : pystr := rev (drop_while isspace (rev s)).
Definition strip (s : pystr) : pystr := rstrip (lstrip s).

(** Truth value of a string: [not s] holds exactly for the empty string. *)
Definition truthy (s : pystr) : bool :=
  match s with [] => false | _ :: _ => true end.

(** A string made of whitespace only (the empty string included). *)
Definition all_space (s : pystr) : bool := forallb isspace s.

(** [needle in hay] *)
Definition occurs_in (needle hay : pystr) : Prop :=
  ∃ before after, hay = before ++ needle ++ after.

End PyStr.
Export PyStr.


(** ** Exceptions and values *)

Module PyObj.

(** The part of the built-in exception hierarchy the module can meet.
    [LibraryError] stands for an exception class defined by a third-party
    package as a direct subclass of [Exception]. *)
Inductive exc_class : Type :=
  | BaseException
  | Exception
  | KeyboardInterrupt
  | SystemExit
  | GeneratorExit
  | RuntimeError
  | ValueError
  | NameError
  | LibraryError (qualname : string).

#[global] Instance exc_class_eq_dec : EqDecision exc_class.
Proof. solve_decision. Defined.

(** The classes an exception of class [c] is an instance of, [c] first. *)
Definition mro (c : exc_class) : list exc_class :=
  match c with
  | BaseException => [BaseException]
  | Exception => [Exception; BaseException]
  | KeyboardInterrupt | SystemExit | GeneratorExit => [c; BaseException]
  | RuntimeError | ValueError | NameError | LibraryError _ =>
      [c; Exception; BaseException]
  end.

(** An exception is seen through its class and through what [str(e)]
    does: it returns a text or, for a class with a failing [__str__] or
    for arguments that cannot be rendered, raises in turn. *)
Inductive pyexc : Type :=
  | PyExc (cls : exc_class) (text : str_result)
with str_result : Type :=
  | StrOk (s : pystr)
  | StrRaises (e : pyexc).

Definition exc_cls (e : pyexc) : exc_class := let 'PyExc c _ := e in c.
Definition exc_str (e : pyexc) : str_result := let 'PyExc _ t := e in t.

(** [isinstance(e, c)], the test an [except c] clause makes. *)
Definition isinstance (e : pyexc) (c : exc_class) : bool :=
  bool_decide (c ∈ mro (exc_cls e)).

(** [RuntimeError(msg)] with a string argument; [str] of it is [msg]. *)
Definition new_RuntimeError (msg : pystr) : pyexc :=
  PyExc RuntimeError (StrOk msg).

(** The values a chain result may hold under a key.  Strings, [None] and
    booleans are spelled out; any other object is seen through what
    [str()] does on it, which is all the handler asks of it. *)
Inductive pyval : Type :=
  | PyStr (s : pystr)
  | PyNone
  | PyBool (b : bool)
  | PyObject (rendering : str_result).

(** [str(v)] *)
Definition py_str (v : pyval) : str_result :=
  match v with
  | PyStr s => StrOk s
  | PyNone => StrOk (lit "None")
  | PyBool true => StrOk (lit "True")
  | PyBool false => StrOk (lit "False")
  | PyObject r => r
  end.

(** A [dict] with string keys. *)
Abbreviation pydict := (gmap pystr pyval).

(** [d.get(key, default)] *)
Definition dict_get (d : pydict) (key : pystr) (default : pyval) : pyval :=
  match d !! key with
  | Some v => v
  | None => default
  end.

(** werkzeug's [MultiDict]: the fields of the form in the order they were
    sent; [get] returns the first value stored under the key. *)
Abbreviation multidict := (list (pystr * pystr)).

Fixpoint form_get (form : multidict) (key default : pystr) : pystr :=
  match form with
  | [] => default
  | (k, v) :: rest => if decide (k = key) then v else form_get rest key default
  end.

Inductive outcome (A : Type) : Type :=
  | Returned (a : A)
  | Raised (e : pyexc).
Arguments Returned {A} a.
Arguments Raised {A} e.

End PyObj.
Export PyObj.

(** ** Objects the module builds and the world it runs in *)

Module Runtime.

(** What [download_embeddings()] of [src.helper] hands back: an opaque
    LangChain embeddings object. *)
Inductive embeddings : Type := EmbeddingsHandle (id : N).

Record vectorstore : Type := PineconeVectorStore
  { vs_index_name : pystr; vs_embedding : embeddings }.

Record retriever_t : Type := VectorStoreRetriever
  { r_vectorstore : vectorstore;
    r_search_type : pystr;
    r_search_kwargs : gmap pystr Z }.

Record chat_model : Type := ChatOpenAI_t { cm_model : pystr }.

Record prompt_template : Type := ChatPromptTemplate
  { pt_messages : list (pystr * pystr) }.

Record documents_chain : Type := StuffDocumentsChain
  { dc_llm : chat_model; dc_prompt : prompt_template }.

Record retrieval_chain : Type := RetrievalChain
  { rc_retriever : retriever_t; rc_combine_docs : documents_chain }.

(** HTTP side. *)
(** A JSON object whose members are strings, which is all [jsonify] is
    given here. *)
Inductive json : Type :=
  | JObj (members : list (pystr * pystr)).

Inductive payload : Type :=
  | Text (s : pystr)
  | Json (j : json)
  | Page (template : pystr).

Record response : Type := Response
  { status : Z; body : payload; mimetype : option pystr }.

(** The shapes of a view's return value the module uses. *)
Inductive view_return : Type :=
  | RvBody (b : payload)
  | RvBodyStatus (b : payload) (st : Z)
  | RvResponse (r : response).

(** Flask's [make_response]: a bare body is sent with status 200, a
    [(body, status)] pair with that status, and a [Response] object as it
    is.  [mimetype] stays [None] where the view sets none. *)
Definition make_response (rv : view_return) : response :=
  match rv with
  | RvBody b => Response 200 b None
  | RvBodyStatus b st => Response st b None
  | RvResponse r => r
  end.

Record request : Type := Request
  { method : pystr; path : pystr; form : multidict }.

Inductive view_fn : Type :=
  | ViewMissingKeys (e : pyexc)
  | ViewIndex
  | ViewChat
  | ViewHealth.

Record route : Type := Route
  { rule : pystr; methods : list pystr; view : view_fn }.

Record run_config : Type := RunConfig
  { host : pystr; port : Z; debug : bool }.

Inductive console_entry : Type :=
  | Traceback (e : pyexc).

(** What lies outside [app.py]: the two sibling modules it imports from
    and the hosted services.  [chain_answer] is what the services make of
    one chain invocation, given the invocations that came before. *)
Record services : Type := Services
  { system_prompt : pystr;
    embeddings_loader : outcome embeddings;
    index_binding : pystr → embeddings → option pyexc;
    model_client : pystr → option pyexc;
    chain_answer : list pydict → pydict → outcome pydict }.

(** The state a run of the module reads and writes. *)
Record world : Type := World
  { environ : gmap pystr pystr;
    routes : list route;
    rag_chain : option retrieval_chain;
    server : option run_config;
    outside : services;
    invocations : list pydict;
    console : list console_entry }.

Definition set_environ (f : gmap pystr pystr → gmap pystr pystr) (w : world) : world :=
  World (f (environ w)) (routes w) (rag_chain w) (server w) (outside w)
        (invocations w) (console w).
Definition set_routes (f : list route → list route) (w : world) : world :=
  World (environ w) (f (routes w)) (rag_chain w) (server w) (outside w)
        (invocations w) (console w).
Definition set_rag_chain (c : option retrieval_chain) (w : world) : world :=
  World (environ w) (routes w) c (server w) (outside w)
        (invocations w) (console w).
Definition set_server (s : option run_config) (w : world) : world :=
  World (environ w) (routes w) (rag_chain w) s (outside w)
        (invocations w) (console w).
Definition set_invocations (f : list pydict → list pydict) (w : world) : world :=
  World (environ w) (routes w) (rag_chain w) (server w) (outside w)
        (f (invocations w)) (console w).
Definition set_console (f : list console_entry → list console_entry) (w : world) : world :=
  World (environ w) (routes w) (rag_chain w) (server w) (outside w)
        (invocations w) (f (console w)).

(** Computations: they read and write the world and end by returning a
    value or raising. *)
Definition M (A : Type) : Type := world → outcome A * world.

#[global] Instance M_ret : MRet M := λ A a w, (Returned a, w).
#[global] Instance M_bind : MBind M := λ A B f m w,
  match m w with
  | (Returned a, w') => f a w'
  | (Raised e, w') => (Raised e, w')
  end.

Definition raise {A} (e : pyexc) : M A := λ w, (Raised e, w).

(** [try: body  except cls as e: handler e] *)
Definition try_except {A} (body : M A) (cls : exc_class) (handler : pyexc → M A) : M A :=
  λ w,
    match body w with
    | (Returned a, w') => (Returned a, w')
    | (Raised e, w') =>
        if isinstance e cls then handler e w' else (Raised e, w')
    end.

(** A call of [str()] inside a computation. *)
Definition str_ (r : str_result) : M pystr :=
  match r with
  | StrOk s => mret s
  | StrRaises e => raise e
  end.

(** [os.getenv(name)] and [os.environ[name] = value] *)
Definition getenv (name : pystr) : M (option pystr) :=
  λ w, (Returned (environ w !! name), w).
Definition putenv (name value : pystr) : M unit :=
  λ w, (Returned (), set_environ (λ env, <[name := value]> env) w).

(** [traceback.print_exc()] in the handler of [e] *)
Definition print_exc (e : pyexc) : M unit :=
  λ w, (Returned (), set_console (λ c, c ++ [Traceback e]) w).

(** [@app.route(rule, methods=...)]; a rule registered without [methods]
    answers [GET]. *)
Definition app_route (rule : pystr) (methods : option (list pystr)) (v : view_fn) : M unit :=
  λ w,
    let ms := match methods with Some ms => ms | None => [lit "GET"] end in
    (Returned (), set_routes (λ rs, rs ++ [Route rule ms v]) w).

(** [app.run(host, port, debug)]: the development server takes over with
    the routes registered so far. *)
Definition app_run (host : pystr) (port : Z) (debug : bool) : M unit :=
  λ w, (Returned (), set_server (Some (RunConfig host port debug)) w).

(** The third-party constructors that reach out to a service. *)
Definition download_embeddings : M embeddings :=
  λ w, (embeddings_loader (outside w), w).

Definition from_existing_index (index_name : pystr) (embedding : embeddings) : M vectorstore :=
  λ w,
    match index_binding (outside w) index_name embedding with
    | None => (Returned (PineconeVectorStore index_name embedding), w)
    | Some e => (Raised e, w)
    end.

Definition ChatOpenAI (model : pystr) : M chat_model :=
  λ w,
    match model_client (outside w) model with
    | None => (Returned (ChatOpenAI_t model), w)
    | Some e => (Raised e, w)
    end.

(** The constructors that only record their arguments. *)
Definition as_retriever (vs : vectorstore) (search_type : pystr)
    (search_kwargs : gmap pystr Z) : retriever_t :=
  VectorStoreRetriever vs search_type search_kwargs.

Definition create_stuff_documents_chain (llm : chat_model) (p : prompt_template) : documents_chain :=
  StuffDocumentsChain llm p.

Definition create_retrieval_chain (r : retriever_t) (c : documents_chain) : retrieval_chain :=
  RetrievalChain r c.

(** [rag_chain.invoke(arg)]: the global [rag_chain] must be bound; the
    answer is the services' and the call is on record. *)
Definition invoke (arg : pydict) : M pydict :=
  λ w,
    match rag_chain w with
    | None => (Raised (PyExc NameError (StrOk (lit "name 'rag_chain' is not defined"))), w)
    | Some _ =>
        (chain_answer (outside w) (invocations w) arg,
         set_invocations (λ l, l ++ [arg]) w)
    end.

End Runtime.
Export Runtime.

(** ** The module [app.py] *)

Module App.

(** [require_env(name)] *)
Definition require_env (name : pystr) : M pystr :=
  val ← getenv name;
  let missing : M pystr :=
    raise (new_RuntimeError
      (lit "Missing required environment variable: " ++ name ++ lit ". "
       ++ lit "Set it in your OS or in a .env file next to app.py.")) in
  match val with
  | None => missing
  | Some v =>
      if negb (truthy v) || negb (truthy (strip v)) then missing
      else mret (strip v)
  end.

(** The message of the error [require_env name] raises. *)
Definition missing_message (name : pystr) : pystr :=
  lit "Missing required environment variable: " ++ name ++ lit ". "
  ++ lit "Set it in your OS or in a .env file next to app.py.".

(** The view registered when validation fails: [f"<pre>{e}</pre>", 500].
    The name [e] is bound for as long as the [except] block runs, which is
    as long as the server started inside that block is serving. *)
Definition missing_keys (e : pyexc) : M view_return :=
  t ← str_ (exc_str e);
  mret (RvBodyStatus (Text (lit "<pre>" ++ t ++ lit "</pre>")) 500).

(** [index()] *)
Definition index : M view_return :=
  mret (RvBody (Page (lit "chat.html"))).

(** [chat()], on the form of the current request.  [chat_except] is the
    body of its [except Exception as e] clause. *)
Definition chat_except (e : pyexc) : M view_return :=
  print_exc e;;
  t ← str_ (exc_str e);
  mret (RvResponse
          (Response 500 (Text (lit "Error: " ++ t)) (Some (lit "text/plain")))).

Definition chat (request_form : multidict) : M view_return :=
  let user_msg := strip (form_get request_form (lit "msg") (lit "")) in
  if negb (truthy user_msg) then
    mret (RvBodyStatus (Text (lit "Please type a message.")) 400)
  else
    try_except
      (result ← invoke {[ lit "input" := PyStr user_msg ]};
       s ← str_ (py_str (dict_get result (lit "answer") (PyStr (lit ""))));
       mret (RvBody (Text (strip s))))
      Exception
      chat_except.

(** What the [try] block and the [except] clause amount to, by the
    outcome of the invocation. *)
Definition chat_after (r : outcome pydict * world) : outcome view_return * world :=
  let guarded e w :=
    if isinstance e Exception then chat_except e w else (Raised e, w) in
  match r with
  | (Returned result, w1) =>
      match py_str (dict_get result (lit "answer") (PyStr (lit ""))) with
      | StrOk s => (Returned (RvBody (Text (strip s))), w1)
      | StrRaises e => guarded e w1
      end
  | (Raised e, w1) => guarded e w1
  end.

(** [health()] *)
Definition health : M view_return :=
  mret (RvBodyStatus (Json (JObj [(lit "status", lit "ok")])) 200).

Definition index_name : pystr := lit "medicalai-chatbot".

(** The module body, top to bottom.  [is_main] is [__name__ == "__main__"]. *)
Definition validate_keys : M (pystr * pystr) :=
  PINECONE_API_KEY ← require_env (lit "PINECONE_API_KEY");
  OPENAI_API_KEY ← require_env (lit "OPENAI_API_KEY");
  mret (PINECONE_API_KEY, OPENAI_API_KEY).

Definition module_body (is_main : bool) : M unit :=
  keys ← try_except validate_keys RuntimeError
            (λ e,
               app_route (lit "/") None (ViewMissingKeys e);;
               (if is_main then app_run (lit "0.0.0.0") 8080 true else mret ());;
               raise e);
  putenv (lit "PINECONE_API_KEY") keys.1;;
  putenv (lit "OPENAI_API_KEY") keys.2;;
  embedding ← download_embeddings;
  docsearch ← from_existing_index index_name embedding;
  chatModel ← ChatOpenAI (lit "gpt-4o-mini");
  let retriever :=
    as_retriever docsearch (lit "similarity") {[ lit "k" := 3%Z ]} in
  prompt ← (λ w, (Returned (ChatPromptTemplate
                      [(lit "system", system_prompt (outside w));
                       (lit "human", lit "{input}")]), w));
  let question_answer_chain := create_stuff_documents_chain chatModel prompt in
  (λ w, (Returned (),
         set_rag_chain (Some (create_retrieval_chain retriever question_answer_chain)) w));;
  app_route (lit "/") None ViewIndex;;
  app_route (lit "/get") (Some [lit "POST"]) ViewChat;;
  app_route (lit "/health") (Some [lit "GET"]) ViewHealth;;
  (if is_main then app_run (lit "0.0.0.0") 8080 true else mret ()).

(** Running the module: an exception that leaves it is reported on the
    console with its traceback. *)
Definition run_module (is_main : bool) (w : world) : world :=
  match module_body is_main w with
  | (Returned _, w') => w'
  | (Raised e, w') => set_console (λ c, c ++ [Traceback e]) w'
  end.

(** Serving one request: the first route whose rule is the path is taken;
    its view runs if the method is one of the route's. *)
Inductive served : Type :=
  | NotFound
  | MethodNotAllowed
  | Answered (r : response)
  | InternalServerError (e : pyexc).

(** The response Flask sends for what a view returns. *)
Definition respond (v : M view_return) : M response :=
  rv ← v; mret (make_response rv).

(** The world [app = Flask(__name__)] starts from: no route, no chain, no
    server, nothing invoked or printed yet.  [env] is [os.environ] once
    [load_dotenv] has run. *)
Definition boot (env : gmap pystr pystr) (out : services) : world :=
  World env [] None None out [] [].

Definition call_view (v : view_fn) (req : request) : M view_return :=
  match v with
  | ViewMissingKeys e => missing_keys e
  | ViewIndex => index
  | ViewChat => chat (form req)
  | ViewHealth => health
  end.

Definition handle (req : request) : M served :=
  λ w,
    match find (λ rt, bool_decide (rule rt = path req)) (routes w) with
    | None => (Returned NotFound, w)
    | Some rt =>
        if bool_decide (method req ∈ methods rt) then
          try_except
            (r ← respond (call_view (view rt) req); mret (Answered r))
            Exception
            (λ e, mret (InternalServerError e)) w
        else (Returned MethodNotAllowed, w)
    end.

(** A sequence of requests, served one after the other.  Flask answers an
    [Exception] that leaves a view with a server error of its own; any
    other exception ends the serving. *)
Fixpoint serve (reqs : list request) : M (list served) :=
  match reqs with
  | [] => mret []
  | req :: rest =>
      r ← handle req;
      rs ← serve rest;
      mret (r :: rs)
  end.

(** A variable that [require_env] rejects: not set, or set to a value
    with nothing but whitespace in it (the empty value included). *)
Definition unset_or_blank (env : gmap pystr pystr) (name : pystr) : Prop :=
  env !! name = None ∨ ∃ v, env !! name = Some v ∧ all_space v = true.

(** A computation that rebinds neither the global [rag_chain] nor the
    application's routes. *)
Definition keeps_app {A} (m : M A) : Prop :=
  ∀ w, rag_chain (m w).2 = rag_chain w ∧ routes (m w).2 = routes w.

(** The routes of a module that started. *)
Definition started_routes : list route :=
  [Route (lit "/") [lit "GET"] ViewIndex;
   Route (lit "/get") [lit "POST"] ViewChat;
   Route (lit "/health") [lit "GET"] ViewHealth].

End App.
Export App.

(** ** Concrete worlds used to run the definitions *)

Module Samples.

Definition migraine_answer : pystr :=
  lit "  A migraine is a recurring headache of moderate to severe intensity. ".

(** Services that bind the index and the model and answer every question
    with [result]. *)
Definition answering (result : outcome pydict) : services :=
  Services (lit "You are a medical assistant.")
           (Returned (EmbeddingsHandle 1))
           (λ _ _, None) (λ _, None)
           (λ _ _, result).

Definition good_env : gmap pystr pystr :=
  {[ lit "PINECONE_API_KEY" := lit " pc-123 ";
     lit "OPENAI_API_KEY" := lit "sk-456" ]}.

(** The world after a successful start under [python app.py]. *)
Definition started (result : outcome pydict) : world :=
  run_module true (boot good_env (answering result)).

(** A value whose [str()] raises: an [int] of more than 4300 digits under
    the interpreter's default conversion limit ([ValueError]); an instance
    of a class whose [__str__] raises is another. *)
Definition huge_int : pyval :=
  PyObject (StrRaises (PyExc ValueError
    (StrOk (lit "Exceeds the limit (4300 digits) for integer string conversion")))).

(** Ctrl-C arriving while the chain is being invoked. *)
Definition interrupt : pyexc := PyExc KeyboardInterrupt (StrOk (lit "")).

Definition hi_input : pydict := {[ lit "input" := PyStr (lit "hi") ]}.

Definition migraine_input : pydict :=
  {[ lit "input" := PyStr (lit "What is a migraine?") ]}.

(** A result whose answer came back blank. *)
Definition blank_result : pydict := {[ lit "answer" := PyStr (lit " ") ]}.

Definition huge_result : pydict := {[ lit "answer" := huge_int ]}.

Definition post_get (msg : pystr) : request :=
  Request (lit "POST") (lit "/get") [(lit "msg", msg)].

Definition get_ (p : pystr) : request := Request (lit "GET") p [].

End Samples.

(** ** What a run of the module leaves behind *)

Module Startup.

(** A required variable that is set to [v], with something other than
    whitespace in it. *)
Definition solid (env : gmap pystr pystr) (name v : pystr) : Prop :=
  env !! name = Some v ∧ all_space v = false.

(** [os.environ] once the two validated keys have been written back. *)
Definition republished (env : gmap pystr pystr) (p o : pystr) : gmap pystr pystr :=
  <[ lit "OPENAI_API_KEY" := strip o ]> (<[ lit "PINECONE_API_KEY" := strip p ]> env).

(** The chain lines 53 to 70 build over the embeddings [emb]. *)
Definition built_chain (out : services) (emb : embeddings) : retrieval_chain :=
  create_retrieval_chain
    (as_retriever (PineconeVectorStore index_name emb)
       (lit "similarity") {[ lit "k" := 3%Z ]})
    (create_stuff_documents_chain
       (ChatOpenAI_t (lit "gpt-4o-mini"))
       (ChatPromptTemplate
          [(lit "system", system_prompt out); (lit "human", lit "{input}")])).

(** The development server of both [app.run] calls, started under
    [__main__] only. *)
Definition dev_server (is_main : bool) : option run_config :=
  if is_main then Some (RunConfig (lit "0.0.0.0") 8080 true) else None.

(** The single route of a module whose keys were rejected. *)
Definition degraded_routes (name : pystr) : list route :=
  [Route (lit "/") [lit "GET"]
         (ViewMissingKeys (new_RuntimeError (missing_message name)))].

(** What the third-party constructors of lines 51 to 60 come to: the
    embeddings they hand on, or the first exception one of them raises. *)
Definition wiring (out : services) : outcome embeddings :=
  match embeddings_loader out with
  | Raised e => Raised e
  | Returned emb =>
      match index_binding out index_name emb with
      | Some e => Raised e
      | None =>
          match model_client out (lit "gpt-4o-mini") with
          | Some e => Raised e
          | None => Returned emb
          end
      end
  end.

End Startup.
Export Startup.

(** ** What serving may change *)

Module Frame.

(** [w'] differs from [w] in the two logs only, each longer by at most [n]
    entries: the environment, the routes, the chain, the server and the
    services are the same. *)
Definition within (n : nat) (w w' : world) : Prop :=
  environ w' = environ w
  ∧ routes w' = routes w
  ∧ rag_chain w' = rag_chain w
  ∧ server w' = server w
  ∧ outside w' = outside w
  ∧ (∃ l, invocations w' = invocations w ++ l ∧ (length l ≤ n)%nat)
  ∧ (∃ l, console w' = console w ++ l ∧ (length l ≤ n)%nat).

(** A computation that stays [within n] of the world it starts in. *)
Definition costs {A} (n : nat) (m : M A) : Prop :=
  ∀ w, within n w (m w).2.

End Frame.
Export Frame.

(** * Properties *)

(** ** Trimming *)

Section drop_while_facts.
Context {A : Type} (p : A → bool).

Lemma drop_while_all (l : list A) :
  forallb p l = true → drop_while p l = [].
Proof.
  induction l as [|x l IH]; simpl; [done|].
  intros [Hx Hl]%andb_prop. rewrite Hx. auto.
Qed.

Lemma drop_while_nil (l : list A) :
  drop_while p l = [] → forallb p l = true.
Proof.
  induction l as [|x l IH]; simpl; [done|].
  destruct (p x) eqn:Hx; [auto | discriminate].
Qed.

Lemma drop_while_app_all (l k : list A) :
  forallb p l = true → drop_while p (l ++ k) = drop_while p k.
Proof.
  induction l as [|x l IH]; simpl; [done|].
  intros [Hx Hl]%andb_prop. rewrite Hx. auto.
Qed.

(** Dropping stops at the first element that fails the test, so what is
    left keeps everything after it. *)
Lemma drop_while_app_stop (l k : list A) :
  drop_while p l ≠ [] → drop_while p (l ++ k) = drop_while p l ++ k.
Proof.
  induction l as [|x l IH]; simpl; [done|].
  destruct (p x); auto.
Qed.

Lemma drop_while_head (l : list A) x r :
  drop_while p l = x :: r → p x = false.
Proof.
  induction l as [|y l IH]; simpl; [done|].
  destruct (p y) eqn:Hy; [auto|]. intros [= -> _]. done.
Qed.

Lemma drop_while_idem (l : list A) :
  drop_while p (drop_while p l) = drop_while p l.
Proof.
  induction l as [|x l IH]; simpl; [done|].
  destruct (p x) eqn:Hx; [done|]. simpl. by rewrite Hx.
Qed.

Lemma drop_while_suffix (l : list A) :
  ∃ k, l = k ++ drop_while p l ∧ forallb p k = true.
Proof.
  induction l as [|x l [k [Hk Hp]]]; simpl; [by exists []|].
  destruct (p x) eqn:Hx.
  - exists (x :: k). simpl. rewrite Hx, Hp. split; [congruence | done].
  - by exists [].
Qed.
End drop_while_facts.

Section strip_facts.
Implicit Types s l r : pystr.

Lemma forallb_rev {A} (p : A → bool) (l : list A) :
  forallb p (rev l) = forallb p l.
Proof.
  induction l as [|x l IH]; simpl; [done|].
  rewrite forallb_app, IH. simpl. rewrite andb_true_r. apply andb_comm.
Qed.

Lemma rstrip_nil_iff s : rstrip s = [] ↔ all_space s = true.
Proof.
  unfold rstrip, all_space. split.
  - intros H. apply (f_equal (@rev N)) in H. rewrite rev_involutive in H.
    apply drop_while_nil in H. by rewrite forallb_rev in H.
  - intros H. rewrite drop_while_all; [done | by rewrite forallb_rev].
Qed.

(** A string is blank after trimming exactly when it is made of
    whitespace only. *)
Lemma strip_nil_iff s : strip s = [] ↔ all_space s = true.
Proof.
  unfold strip, lstrip. rewrite rstrip_nil_iff. unfold all_space.
  destruct (drop_while_suffix isspace s) as [k [Hk Hp]]. split.
  - intros H. rewrite Hk, forallb_app, Hp. done.
  - intros H. rewrite drop_while_all; done.
Qed.

Lemma strip_all_space s : all_space s = true → strip s = [].
Proof. apply strip_nil_iff. Qed.

Lemma rstrip_app_all s r : all_space r = true → rstrip (s ++ r) = rstrip s.
Proof.
  intros Hr. unfold rstrip. rewrite rev_app_distr.
  rewrite drop_while_app_all; [done | by rewrite forallb_rev].
Qed.

Lemma lstrip_app_all l s : all_space l = true → lstrip (l ++ s) = lstrip s.
Proof. apply drop_while_app_all. Qed.

Lemma lstrip_app_stop s r : lstrip s ≠ [] → lstrip (s ++ r) = lstrip s ++ r.
Proof. apply drop_while_app_stop. Qed.

(** Whitespace around a message does not change its trimmed form. *)
Lemma strip_surrounding l s r :
  all_space l = true → all_space r = true → strip (l ++ s ++ r) = strip s.
Proof.
  intros Hl Hr. unfold strip. rewrite lstrip_app_all by done.
  destruct (lstrip s) as [|c t] eqn:Hs.
  - assert (all_space s = true) as Hall
      by (apply drop_while_nil in Hs; exact Hs).
    assert (all_space (s ++ r) = true) as Hall'
      by (unfold all_space; rewrite forallb_app; unfold all_space in *;
          by rewrite Hall, Hr).
    unfold lstrip. rewrite drop_while_all by exact Hall'. done.
  - rewrite lstrip_app_stop by (rewrite Hs; done).
    rewrite Hs. by apply rstrip_app_all.
Qed.

Lemma strip_first_not_space s c t : strip s = c :: t → isspace c = false.
Proof.
  unfold strip, rstrip, lstrip. intros H.
  destruct (drop_while_suffix isspace (rev (drop_while isspace s)))
    as [k [Hk Hp]].
  rewrite <- (rev_involutive (c :: t)) in H. apply (f_equal (@rev N)) in H.
  rewrite !rev_involutive in H. simpl in H.
  apply (f_equal (@rev N)) in Hk. rewrite rev_involutive, rev_app_distr in Hk.
  rewrite H, rev_app_distr, rev_involutive in Hk. simpl in Hk.
  by apply (drop_while_head isspace s c (t ++ rev k)).
Qed.

Lemma strip_last_not_space s c t : strip s = t ++ [c] → isspace c = false.
Proof.
  unfold strip, rstrip. intros H.
  apply (f_equal (@rev N)) in H. rewrite rev_involutive, rev_app_distr in H.
  simpl in H. by apply drop_while_head in H.
Qed.

Lemma strip_idem s : strip (strip s) = strip s.
Proof.
  destruct (strip s) as [|c t] eqn:Hs; [done|].
  pose proof (strip_first_not_space _ _ _ Hs) as Hc.
  unfold strip at 1. unfold lstrip. simpl. rewrite Hc.
  rewrite <- Hs. unfold strip, rstrip. rewrite rev_involutive.
  by rewrite drop_while_idem.
Qed.

Lemma truthy_false s : truthy s = false ↔ s = [].
Proof. by destruct s. Qed.

Lemma occurs_in_app_middle (a n b : pystr) : occurs_in n (a ++ n ++ b).
Proof. by exists a, b. Qed.
End strip_facts.

(** ** The sample worlds run as expected *)

Example started_has_chain :
  rag_chain (Samples.started (Returned ∅)) =
    Some (RetrievalChain
            (VectorStoreRetriever
               (PineconeVectorStore (lit "medicalai-chatbot") (EmbeddingsHandle 1))
               (lit "similarity") {[ lit "k" := 3%Z ]})
            (StuffDocumentsChain
               (ChatOpenAI_t (lit "gpt-4o-mini"))
               (ChatPromptTemplate
                  [(lit "system", lit "You are a medical assistant.");
                   (lit "human", lit "{input}")]))).
Proof. vm_compute. reflexivity. Qed.

Example started_env_trimmed :
  environ (Samples.started (Returned ∅)) !! lit "PINECONE_API_KEY" = Some (lit "pc-123").
Proof. vm_compute. reflexivity. Qed.

Example migraine_round_trip :
  (handle (Samples.post_get (lit " What is a migraine? "))
     (Samples.started (Returned {[ lit "answer" := PyStr Samples.migraine_answer ]}))).1
  = Returned (Answered (Response 200
      (Text (lit "A migraine is a recurring headache of moderate to severe intensity."))
      None)).
Proof. vm_compute. reflexivity. Qed.

(** ** The chat handler *)

Section chat_facts.
Implicit Types (request_form : multidict) (w : world) (e : pyexc).

Lemma form_get_absent request_form key default :
  (∀ v, (key, v) ∉ request_form) → form_get request_form key default = default.
Proof.
  induction request_form as [|[k v] rest IH]; simpl; [done|].
  intros Habs. destruct (decide (k = key)) as [->|Hne].
  - exfalso. apply (Habs v). left.
  - apply IH. intros v' Hin. apply (Habs v'). by right.
Qed.

Lemma form_get_first request_form key default v before after :
  request_form = before ++ (key, v) :: after →
  (∀ v', (key, v') ∉ before) →
  form_get request_form key default = v.
Proof.
  intros -> Hfirst. induction before as [|[k u] rest IH]; simpl.
  - by rewrite decide_True.
  - destruct (decide (k = key)) as [->|Hne].
    + exfalso. apply (Hfirst u). left.
    + apply IH. intros v' Hin. apply (Hfirst v'). by right.
Qed.

Lemma chat_nonblank request_form w :
  strip (form_get request_form (lit "msg") (lit "")) ≠ [] →
  chat request_form w =
    chat_after
      (invoke {[ lit "input" :=
                   PyStr (strip (form_get request_form (lit "msg") (lit ""))) ]} w).
Proof.
  intros Hmsg. unfold chat, chat_after.
  destruct (strip (form_get request_form (lit "msg") (lit ""))) as [|c t] eqn:E;
    [done|].
  cbn [truthy negb]. unfold try_except, mbind, M_bind.
  destruct (invoke _ w) as [[result|e] w1]; [|done].
  destruct (py_str _) as [s|e]; done.
Qed.

Lemma chat_except_caught e t w :
  exc_str e = StrOk t →
  chat_except e w =
    (Returned (RvResponse
       (Response 500 (Text (lit "Error: " ++ t)) (Some (lit "text/plain")))),
     set_console (λ c, c ++ [Traceback e]) w).
Proof. intros Ht. unfold chat_except, mbind, M_bind. cbn. by rewrite Ht. Qed.

Lemma chat_except_str_fails e e' w :
  exc_str e = StrRaises e' →
  chat_except e w = (Raised e', set_console (λ c, c ++ [Traceback e]) w).
Proof. intros Ht. unfold chat_except, mbind, M_bind. cbn. by rewrite Ht. Qed.

Lemma invoke_returned_bound arg w r w1 :
  invoke arg w = (r, w1) → is_Some (rag_chain w) →
  r = chain_answer (outside w) (invocations w) arg ∧
  w1 = set_invocations (λ l, l ++ [arg]) w.
Proof.
  unfold invoke. intros H [c Hc]. rewrite Hc in H. by injection H as <- <-.
Qed.

End chat_facts.

(** C2.  A POST to /get whose [msg] field is absent, empty or made of
    whitespace only is answered with status 400 and the body
    "Please type a message."; the world is left as it was, so the chain
    has not been invoked. *)
Theorem chat_blank_message_400 (request_form : multidict) (w : world) :
  (∀ v, (lit "msg", v) ∉ request_form) ∨
  all_space (form_get request_form (lit "msg") (lit "")) = true →
  respond (chat request_form) w =
    (Returned (Response 400 (Text (lit "Please type a message.")) None), w)
  ∧ invocations (chat request_form w).2 = invocations w.
Proof.
  intros Hblank.
  assert (strip (form_get request_form (lit "msg") (lit "")) = []) as Hstrip.
  { apply strip_all_space. destruct Hblank as [Habs|Hws]; [|done].
    by rewrite form_get_absent. }
  unfold respond, chat, mbind, M_bind. rewrite Hstrip. done.
Qed.

Lemma chat_blank_message_400_absent :
  respond (chat [(lit "q", lit "hello")]) (Samples.started (Returned ∅)) =
    (Returned (Response 400 (Text (lit "Please type a message.")) None),
     Samples.started (Returned ∅))
  ∧ invocations (chat [(lit "q", lit "hello")] (Samples.started (Returned ∅))).2
    = invocations (Samples.started (Returned ∅)).
Proof.
  apply (chat_blank_message_400 [(lit "q", lit "hello")]).
  right. vm_compute. reflexivity.
Defined.



Example health_served_when_services_fail :
  (handle (Samples.get_ (lit "/health"))
     (Samples.started (Raised (PyExc (LibraryError "pinecone.PineconeException")
                                     (StrOk (lit "index unreachable")))))).1
  = Returned (Answered (Response 200 (Json (JObj [(lit "status", lit "ok")])) None)).
Proof. vm_compute. reflexivity. Qed.

(** C3, as the code has it.  An exception [e] raised by the invocation is
    caught when it is an instance of [Exception]: its traceback goes to the
    console first, and the response is 500, text/plain, "Error: " followed
    by the text [str(e)] yields (should [str(e)] raise instead, that
    exception leaves the handler after the traceback is printed).  An
    exception that is not an instance of [Exception] is not caught: it
    leaves the handler and nothing is printed. *)
Theorem chat_catches_Exception_instances
    (request_form : multidict) (w w1 : world) (e : pyexc) :
  let user_msg := strip (form_get request_form (lit "msg") (lit "")) in
  user_msg ≠ [] →
  invoke {[ lit "input" := PyStr user_msg ]} w = (Raised e, w1) →
  (isinstance e Exception = true →
   ∀ t, exc_str e = StrOk t →
     respond (chat request_form) w =
       (Returned (Response 500 (Text (lit "Error: " ++ t)) (Some (lit "text/plain"))),
        set_console (λ c, c ++ [Traceback e]) w1))
  ∧ (isinstance e Exception = true →
     ∀ e', exc_str e = StrRaises e' →
       respond (chat request_form) w =
         (Raised e', set_console (λ c, c ++ [Traceback e]) w1))
  ∧ (isinstance e Exception = false →
     respond (chat request_form) w = (Raised e, w1)).
Proof.
  intros user_msg Hmsg Hinv. subst user_msg.
  unfold respond, mbind, M_bind. rewrite chat_nonblank by done.
  rewrite Hinv. unfold chat_after. split; [|split].
  - intros -> t Ht. by rewrite (chat_except_caught e t).
  - intros -> e' He'. by rewrite (chat_except_str_fails e e').
  - by intros ->.
Qed.

Lemma chat_catches_Exception_instances_quota :
  respond (chat [(lit "msg", lit "hi")])
    (Samples.started (Raised (PyExc (LibraryError "openai.RateLimitError")
                                    (StrOk (lit "quota exceeded")))))
  = (Returned (Response 500 (Text (lit "Error: quota exceeded")) (Some (lit "text/plain"))),
     set_console
       (λ c, c ++ [Traceback (PyExc (LibraryError "openai.RateLimitError")
                                    (StrOk (lit "quota exceeded")))])
       (set_invocations (λ l, l ++ [{[ lit "input" := PyStr (lit "hi") ]}])
          (Samples.started (Raised (PyExc (LibraryError "openai.RateLimitError")
                                          (StrOk (lit "quota exceeded"))))))).
Proof.
  refine (proj1 (chat_catches_Exception_instances
            [(lit "msg", lit "hi")] _ _ _ _ _) _ (lit "quota exceeded") _).
  - vm_compute. discriminate.
  - vm_compute. reflexivity.
  - vm_compute. reflexivity.
  - vm_compute. reflexivity.
Defined.

(** C3 does not hold for every exception: a [KeyboardInterrupt] raised
    while the chain is being invoked passes the [except Exception] clause
    and leaves the handler; there is no response and no traceback. *)
Lemma chat_lets_KeyboardInterrupt_out :
  strip (form_get [(lit "msg", lit "hi")] (lit "msg") (lit "")) ≠ []
  ∧ invoke Samples.hi_input (Samples.started (Raised Samples.interrupt))
    = (Raised Samples.interrupt,
       set_invocations (λ l, l ++ [Samples.hi_input])
         (Samples.started (Raised Samples.interrupt)))
  ∧ respond (chat [(lit "msg", lit "hi")]) (Samples.started (Raised Samples.interrupt))
    = (Raised Samples.interrupt,
       set_invocations (λ l, l ++ [Samples.hi_input])
         (Samples.started (Raised Samples.interrupt)))
  ∧ console (set_invocations (λ l, l ++ [Samples.hi_input])
               (Samples.started (Raised Samples.interrupt))) = [].
Proof. vm_compute. repeat split; discriminate || reflexivity. Qed.

(** C7, as the code has it.  With a non-blank message and an invocation
    that returns a result whose "answer" is the string [answer], the
    response is 200 with the trimmed [answer] as its body; that body is
    non-empty exactly when [answer] has a character that is not
    whitespace. *)
Theorem chat_body_nonempty_iff
    (request_form : multidict) (w w1 : world) (result : pydict) (answer : pystr) :
  let user_msg := strip (form_get request_form (lit "msg") (lit "")) in
  user_msg ≠ [] →
  invoke {[ lit "input" := PyStr user_msg ]} w = (Returned result, w1) →
  result !! lit "answer" = Some (PyStr answer) →
  respond (chat request_form) w =
    (Returned (Response 200 (Text (strip answer)) None), w1)
  ∧ (strip answer ≠ [] ↔ all_space answer = false).
Proof.
  intros user_msg Hmsg Hinv Hans. subst user_msg. split.
  - unfold respond, mbind, M_bind. rewrite chat_nonblank by done.
    rewrite Hinv. unfold chat_after, dict_get. by rewrite Hans.
  - rewrite strip_nil_iff. by destruct (all_space answer).
Qed.

Lemma chat_body_nonempty_iff_migraine :
  respond (chat [(lit "msg", lit "What is a migraine?")])
    (Samples.started (Returned {[ lit "answer" := PyStr (lit " Headache. ") ]}))
  = (Returned (Response 200 (Text (strip (lit " Headache. "))) None),
     set_invocations (λ l, l ++ [{[ lit "input" := PyStr (lit "What is a migraine?") ]}])
       (Samples.started (Returned {[ lit "answer" := PyStr (lit " Headache. ") ]})))
  ∧ (strip (lit " Headache. ") ≠ [] ↔ all_space (lit " Headache. ") = false).
Proof.
  refine (chat_body_nonempty_iff
            [(lit "msg", lit "What is a migraine?")] _ _
            {[ lit "answer" := PyStr (lit " Headache. ") ]} (lit " Headache. ") _ _ _).
  - vm_compute. discriminate.
  - vm_compute. reflexivity.
  - vm_compute. reflexivity.
Defined.

(** C7 does not hold with "non-empty": the chain is configured, the
    invocation succeeds, the message is "What is a migraine?", and the
    body is empty because the answer that came back is blank. *)
Lemma chat_blank_answer_empty_body :
  strip (form_get [(lit "msg", lit "What is a migraine?")] (lit "msg") (lit "")) ≠ []
  ∧ is_Some (rag_chain (Samples.started (Returned Samples.blank_result)))
  ∧ invoke Samples.migraine_input (Samples.started (Returned Samples.blank_result))
    = (Returned Samples.blank_result,
       set_invocations (λ l, l ++ [Samples.migraine_input])
         (Samples.started (Returned Samples.blank_result)))
  ∧ respond (chat [(lit "msg", lit "What is a migraine?")])
      (Samples.started (Returned Samples.blank_result))
    = (Returned (Response 200 (Text []) None),
       set_invocations (λ l, l ++ [Samples.migraine_input])
         (Samples.started (Returned Samples.blank_result))).
Proof. vm_compute. repeat split; discriminate || eauto. Qed.

(** C10, as the code has it.  The handler applies [str()] to the "answer"
    before trimming, so a value of any type whose [str()] returns is
    answered with status 200 and its trimmed rendering; a response other
    than that, or an exception, can only come from a value whose own
    [str()] raises. *)
Theorem chat_renders_any_answer
    (request_form : multidict) (w w1 : world) (result : pydict) (v : pyval) :
  let user_msg := strip (form_get request_form (lit "msg") (lit "")) in
  user_msg ≠ [] →
  invoke {[ lit "input" := PyStr user_msg ]} w = (Returned result, w1) →
  result !! lit "answer" = Some v →
  (∀ s, py_str v = StrOk s →
     respond (chat request_form) w =
       (Returned (Response 200 (Text (strip s)) None), w1))
  ∧ (∀ out, respond (chat request_form) w = out →
     (∀ r w', out = (Returned r, w') → status r ≠ 200%Z → ∃ e, py_str v = StrRaises e)
     ∧ (∀ e w', out = (Raised e, w') → ∃ e0, py_str v = StrRaises e0)).
Proof.
  intros user_msg Hmsg Hinv Hans. subst user_msg.
  assert (∀ s, py_str v = StrOk s →
            respond (chat request_form) w =
              (Returned (Response 200 (Text (strip s)) None), w1)) as Hok.
  { intros s Hs. unfold respond, mbind, M_bind. rewrite chat_nonblank by done.
    rewrite Hinv. unfold chat_after, dict_get. by rewrite Hans, Hs. }
  split; [exact Hok|].
  intros out Hout. destruct (py_str v) as [s|e0] eqn:Hv; [|by eauto].
  rewrite (Hok s eq_refl) in Hout. subst out. split.
  - intros r w' [= <- _] Hst. by destruct Hst.
  - intros e w' [=].
Qed.

Lemma chat_renders_any_answer_None :
  respond (chat [(lit "msg", lit "hi")])
    (Samples.started (Returned {[ lit "answer" := PyNone ]}))
  = (Returned (Response 200 (Text (strip (lit "None"))) None),
     set_invocations (λ l, l ++ [{[ lit "input" := PyStr (lit "hi") ]}])
       (Samples.started (Returned {[ lit "answer" := PyNone ]}))).
Proof.
  refine (proj1 (chat_renders_any_answer
            [(lit "msg", lit "hi")] _ _ {[ lit "answer" := PyNone ]} PyNone _ _ _)
          (lit "None") _).
  - vm_compute. discriminate.
  - vm_compute. reflexivity.
  - vm_compute. reflexivity.
  - reflexivity.
Defined.

(** C10 does not hold for every value: an "answer" whose [str()] raises
    (an [int] too long for the interpreter's conversion limit raises
    [ValueError]) sends the handler through its [except] clause, and the
    response is 500. *)
Lemma chat_unrenderable_answer_500 :
  strip (form_get [(lit "msg", lit "hi")] (lit "msg") (lit "")) ≠ []
  ∧ invoke Samples.hi_input (Samples.started (Returned Samples.huge_result))
    = (Returned Samples.huge_result,
       set_invocations (λ l, l ++ [Samples.hi_input])
         (Samples.started (Returned Samples.huge_result)))
  ∧ Samples.huge_result !! lit "answer" = Some Samples.huge_int
  ∧ respond (chat [(lit "msg", lit "hi")]) (Samples.started (Returned Samples.huge_result))
    = (Returned (Response 500
         (Text (lit "Error: Exceeds the limit (4300 digits) for integer string conversion"))
         (Some (lit "text/plain"))),
       set_console
         (λ c, c ++ [Traceback (PyExc ValueError
            (StrOk (lit "Exceeds the limit (4300 digits) for integer string conversion")))])
         (set_invocations (λ l, l ++ [Samples.hi_input])
            (Samples.started (Returned Samples.huge_result)))).
Proof. vm_compute. repeat split; discriminate || reflexivity. Qed.

(** C9.  The chain is invoked once, with [{"input": m}] where [m] is the
    trimmed message: [m] neither starts nor ends with whitespace, and two
    requests whose messages are the same text inside different surrounding
    whitespace hand the chain the same input. *)
Theorem chat_invokes_with_trimmed_message
    (request_form request_form' : multidict) (w w' : world)
    (left right left' right' core : pystr) :
  let msg := form_get request_form (lit "msg") (lit "") in
  let msg' := form_get request_form' (lit "msg") (lit "") in
  strip msg ≠ [] →
  is_Some (rag_chain w) → is_Some (rag_chain w') →
  msg = left ++ core ++ right → msg' = left' ++ core ++ right' →
  all_space left = true → all_space right = true →
  all_space left' = true → all_space right' = true →
  invocations (chat request_form w).2
    = invocations w ++ [{[ lit "input" := PyStr (strip msg) ]}]
  ∧ invocations (chat request_form' w').2
    = invocations w' ++ [{[ lit "input" := PyStr (strip msg') ]}]
  ∧ strip msg' = strip msg
  ∧ (∀ c t, strip msg = c :: t → isspace c = false)
  ∧ (∀ c t, strip msg = t ++ [c] → isspace c = false).
Proof.
  intros msg msg' Hmsg Hw Hw' Hcore Hcore' Hl Hr Hl' Hr'.
  assert (strip msg' = strip msg) as Hsame.
  { rewrite Hcore, Hcore'. by rewrite !strip_surrounding. }
  assert (∀ f x, strip (form_get f (lit "msg") (lit "")) ≠ [] →
            is_Some (rag_chain x) →
            invocations (chat f x).2
              = invocations x
                ++ [{[ lit "input" := PyStr (strip (form_get f (lit "msg") (lit ""))) ]}])
    as Hcall.
  { intros f x Hf Hx. rewrite chat_nonblank by done.
    destruct (invoke _ x) as [r x1] eqn:Hinv.
    destruct (invoke_returned_bound _ _ _ _ Hinv Hx) as [_ ->].
    unfold chat_after.
    destruct r as [result|e].
    - destruct (py_str _) as [s|e]; [done|].
      destruct (isinstance e Exception); [|done].
      unfold chat_except, mbind, M_bind. cbn. by destruct (exc_str e).
    - destruct (isinstance e Exception); [|done].
      unfold chat_except, mbind, M_bind. cbn. by destruct (exc_str e). }
  split; [by apply Hcall|].
  split; [apply Hcall; [fold msg'; by rewrite Hsame | done]|].
  split; [done|].
  split; [apply strip_first_not_space | apply strip_last_not_space].
Qed.

Lemma chat_invokes_with_trimmed_message_padded :
  invocations (chat [(lit "msg", lit "  fever ")]
                 (Samples.started (Returned ∅))).2
    = [{[ lit "input" := PyStr (lit "fever") ]}]
  ∧ invocations (chat [(lit "msg", lit "fever   ")]
                   (Samples.started (Raised (PyExc SystemExit (StrOk (lit "")))))).2
    = [{[ lit "input" := PyStr (lit "fever") ]}].
Proof.
  pose proof (chat_invokes_with_trimmed_message
    [(lit "msg", lit "  fever ")] [(lit "msg", lit "fever   ")]
    (Samples.started (Returned ∅))
    (Samples.started (Raised (PyExc SystemExit (StrOk (lit "")))))
    (lit "  ") (lit " ") (lit "") (lit "   ") (lit "fever")) as H.
  cbv zeta in H.
  destruct H as (H1 & H2 & _).
  - vm_compute. discriminate.
  - vm_compute. eauto.
  - vm_compute. eauto.
  - vm_compute. reflexivity.
  - vm_compute. reflexivity.
  - vm_compute. reflexivity.
  - vm_compute. reflexivity.
  - vm_compute. reflexivity.
  - vm_compute. reflexivity.
  - split; [exact H1 | exact H2].
Defined.

(** ** Reading the configuration *)

Section require_env_facts.
Implicit Types (name : pystr) (w : world).

Lemma require_env_rejects name w :
  unset_or_blank (environ w) name →
  require_env name w = (Raised (new_RuntimeError (missing_message name)), w).
Proof.
  unfold require_env, getenv, mbind, M_bind, raise.
  intros [Hnone | (v & Hv & Hblank)].
  - by rewrite Hnone.
  - rewrite Hv. apply strip_all_space in Hblank. rewrite Hblank.
    cbn. by rewrite orb_true_r.
Qed.

Lemma require_env_accepts name w v :
  environ w !! name = Some v → all_space v = false →
  require_env name w = (Returned (strip v), w).
Proof.
  unfold require_env, getenv, mbind, M_bind, raise. intros Hv Hsolid.
  rewrite Hv.
  assert (strip v ≠ []) as Hs by (rewrite strip_nil_iff; congruence).
  destruct v as [|c v']; [done|].
  destruct (strip (c :: v')) as [|c' t]; done.
Qed.

Lemma unset_or_blank_dec (env : gmap pystr pystr) name :
  unset_or_blank env name ∨ ∃ v, env !! name = Some v ∧ all_space v = false.
Proof.
  unfold unset_or_blank. destruct (env !! name) as [v|]; [|by left; left].
  destruct (all_space v) eqn:E; [left; right | right]; eauto.
Qed.

Lemma missing_message_names name : occurs_in name (missing_message name).
Proof. apply occurs_in_app_middle. Qed.

End require_env_facts.

(** C4.  [require_env name] raises a [RuntimeError] whose message contains
    [name] when the variable is unset, empty or blank, and leaves the
    environment alone; otherwise it returns the value trimmed. *)
Theorem require_env_contract (name : pystr) (w : world) :
  (unset_or_blank (environ w) name →
     ∃ msg, require_env name w = (Raised (PyExc RuntimeError (StrOk msg)), w)
            ∧ occurs_in name msg)
  ∧ (∀ v, environ w !! name = Some v → all_space v = false →
       require_env name w = (Returned (strip v), w)
       ∧ strip v ≠ []
       ∧ (∀ c t, strip v = c :: t → isspace c = false)
       ∧ (∀ c t, strip v = t ++ [c] → isspace c = false)).
Proof.
  split.
  - intros Hbad. exists (missing_message name).
    split; [by apply require_env_rejects | apply missing_message_names].
  - intros v Hv Hsolid. split; [by apply require_env_accepts|].
    split; [rewrite strip_nil_iff; congruence|].
    split; [apply strip_first_not_space | apply strip_last_not_space].
Qed.

Lemma require_env_contract_runs :
  (∃ msg, require_env (lit "OPENAI_API_KEY")
            (boot {[ lit "OPENAI_API_KEY" := lit "   " ]} (Samples.answering (Returned ∅)))
          = (Raised (PyExc RuntimeError (StrOk msg)),
             boot {[ lit "OPENAI_API_KEY" := lit "   " ]} (Samples.answering (Returned ∅)))
          ∧ occurs_in (lit "OPENAI_API_KEY") msg)
  ∧ require_env (lit "PINECONE_API_KEY")
      (boot Samples.good_env (Samples.answering (Returned ∅)))
    = (Returned (lit "pc-123"), boot Samples.good_env (Samples.answering (Returned ∅))).
Proof.
  split.
  - apply (proj1 (require_env_contract (lit "OPENAI_API_KEY")
             (boot {[ lit "OPENAI_API_KEY" := lit "   " ]}
                   (Samples.answering (Returned ∅))))).
    right. exists (lit "   "). vm_compute. split; reflexivity.
  - apply (proj2 (require_env_contract (lit "PINECONE_API_KEY")
             (boot Samples.good_env (Samples.answering (Returned ∅))))
             (lit " pc-123 ")).
    + vm_compute. reflexivity.
    + vm_compute. reflexivity.
Defined.

(** ** Start-up *)

Section startup_facts.
Implicit Types (env : gmap pystr pystr) (out : services) (w : world).

Lemma unset_or_blank_not_solid env name v :
  unset_or_blank env name → env !! name = Some v → all_space v = false → False.
Proof. intros [Hn | (u & Hu & Hb)] Hv Hs; congruence. Qed.

Lemma validate_keys_rejects w :
  unset_or_blank (environ w) (lit "PINECONE_API_KEY")
  ∨ unset_or_blank (environ w) (lit "OPENAI_API_KEY") →
  ∃ name,
    (name = lit "PINECONE_API_KEY" ∨ name = lit "OPENAI_API_KEY")
    ∧ unset_or_blank (environ w) name
    ∧ validate_keys w = (Raised (new_RuntimeError (missing_message name)), w).
Proof.
  intros Hbad. unfold validate_keys, mbind, M_bind.
  destruct (unset_or_blank_dec (environ w) (lit "PINECONE_API_KEY"))
    as [Hp | (v & Hv & Hsolid)].
  - exists (lit "PINECONE_API_KEY"). split; [by left|]. split; [done|].
    by rewrite require_env_rejects.
  - destruct Hbad as [Hp | Ho];
      [destruct (unset_or_blank_not_solid _ _ _ Hp Hv Hsolid)|].
    exists (lit "OPENAI_API_KEY"). split; [by right|]. split; [done|].
    rewrite (require_env_accepts _ _ _ Hv Hsolid).
    by rewrite require_env_rejects.
Qed.

Lemma validate_keys_world w : (validate_keys w).2 = w.
Proof.
  unfold validate_keys, mbind, M_bind.
  destruct (unset_or_blank_dec (environ w) (lit "PINECONE_API_KEY"))
    as [Hp | (v & Hv & Hsolid)].
  - by rewrite require_env_rejects.
  - rewrite (require_env_accepts _ _ _ Hv Hsolid).
    destruct (unset_or_blank_dec (environ w) (lit "OPENAI_API_KEY"))
      as [Ho | (u & Hu & Hsolid')].
    + by rewrite require_env_rejects.
    + by rewrite (require_env_accepts _ _ _ Hu Hsolid').
Qed.

Lemma validate_keys_raises_RuntimeError w e w1 :
  validate_keys w = (Raised e, w1) → isinstance e RuntimeError = true.
Proof.
  unfold validate_keys, mbind, M_bind.
  destruct (unset_or_blank_dec (environ w) (lit "PINECONE_API_KEY"))
    as [Hp | (v & Hv & Hsolid)].
  - rewrite require_env_rejects by done. by intros [= <- _].
  - rewrite (require_env_accepts _ _ _ Hv Hsolid).
    destruct (unset_or_blank_dec (environ w) (lit "OPENAI_API_KEY"))
      as [Ho | (u & Hu & Hsolid')].
    + rewrite require_env_rejects by done. by intros [= <- _].
    + by rewrite (require_env_accepts _ _ _ Hu Hsolid').
Qed.

(** The world a failed validation leaves behind. *)
Lemma run_module_rejected is_main env out name :
  validate_keys (boot env out)
    = (Raised (new_RuntimeError (missing_message name)), boot env out) →
  run_module is_main (boot env out)
  = World env
      [Route (lit "/") [lit "GET"]
             (ViewMissingKeys (new_RuntimeError (missing_message name)))]
      None
      (if is_main then Some (RunConfig (lit "0.0.0.0") 8080 true) else None)
      out []
      [Traceback (new_RuntimeError (missing_message name))].
Proof.
  intros Hv. unfold run_module, module_body, try_except, mbind, M_bind.
  rewrite Hv. by destruct is_main.
Qed.


End startup_facts.



Example root_page_without_pinecone_key :
  (handle (Samples.get_ (lit "/"))
     (run_module true
        (boot {[ lit "OPENAI_API_KEY" := lit "sk-456" ]}
              (Samples.answering (Returned ∅))))).1
  = Returned (Answered (Response 500
      (Text (lit "<pre>Missing required environment variable: PINECONE_API_KEY. Set it in your OS or in a .env file next to app.py.</pre>"))
      None)).
Proof. vm_compute. reflexivity. Qed.

(** ** The chain after start-up *)

Section keeps_app_facts.

Lemma keeps_ret {A} (a : A) : keeps_app (mret a).
Proof. by intros w. Qed.

Lemma keeps_raise {A} e : keeps_app (raise (A := A) e).
Proof. by intros w. Qed.

Lemma keeps_bind {A B} (m : M A) (f : A → M B) :
  keeps_app m → (∀ a, keeps_app (f a)) → keeps_app (m ≫= f).
Proof.
  intros Hm Hf w. unfold mbind, M_bind. specialize (Hm w).
  destruct (m w) as [[a|e] w1]; cbn [snd] in Hm |- *; [|done].
  destruct Hm as [<- <-]. apply Hf.
Qed.

Lemma keeps_try {A} (m : M A) cls (h : pyexc → M A) :
  keeps_app m → (∀ e, keeps_app (h e)) → keeps_app (try_except m cls h).
Proof.
  intros Hm Hh w. unfold try_except. specialize (Hm w).
  destruct (m w) as [[a|e] w1]; cbn [snd] in Hm |- *; [done|].
  destruct (isinstance e cls); [|done].
  destruct Hm as [<- <-]. apply Hh.
Qed.

Lemma keeps_str r : keeps_app (str_ r).
Proof. destruct r; [apply keeps_ret | apply keeps_raise]. Qed.

Lemma keeps_print_exc e : keeps_app (print_exc e).
Proof. by intros w. Qed.

Lemma keeps_invoke arg : keeps_app (invoke arg).
Proof. intros w. unfold invoke. by destruct (rag_chain w) eqn:E. Qed.

End keeps_app_facts.

Create HintDb keeps discriminated.
#[local] Hint Resolve keeps_ret keeps_raise keeps_str keeps_print_exc keeps_invoke : keeps.
#[local] Hint Extern 2 (keeps_app (_ ≫= _)) => apply keeps_bind; [|intros ?] : keeps.
#[local] Hint Extern 2 (keeps_app (try_except _ _ _)) => apply keeps_try; [|intros ?] : keeps.

Section views_keep_app.

Lemma keeps_chat_except e : keeps_app (chat_except e).
Proof. unfold chat_except. auto 10 with keeps. Qed.

Lemma keeps_chat request_form : keeps_app (chat request_form).
Proof.
  unfold chat. destruct (negb _); [apply keeps_ret|].
  apply keeps_try; [auto 10 with keeps | apply keeps_chat_except].
Qed.

Lemma keeps_call_view v req : keeps_app (call_view v req).
Proof.
  destruct v; cbn [call_view].
  - unfold missing_keys. auto 10 with keeps.
  - apply keeps_ret.
  - apply keeps_chat.
  - apply keeps_ret.
Qed.

Lemma keeps_handle req : keeps_app (handle req).
Proof.
  intros w. unfold handle. destruct (find _ _) as [rt|]; [|done].
  destruct (bool_decide _); [|done].
  apply keeps_try; [|intros e; apply keeps_ret].
  unfold respond. apply keeps_bind; [|intros r; apply keeps_ret].
  apply keeps_bind; [apply keeps_call_view | intros rv; apply keeps_ret].
Qed.

Lemma keeps_serve reqs : keeps_app (serve reqs).
Proof.
  induction reqs as [|req rest IH]; cbn [serve]; [apply keeps_ret|].
  apply keeps_bind; [apply keeps_handle | intros r].
  apply keeps_bind; [exact IH | intros rs; apply keeps_ret].
Qed.

End views_keep_app.

Section chain_built.

(** Whenever the module binds [rag_chain], it is to the chain built from
    these arguments; every failure on the way leaves it unbound. *)
Lemma run_module_chain is_main env out c :
  rag_chain (run_module is_main (boot env out)) = Some c →
  routes (run_module is_main (boot env out)) = started_routes
  ∧ ∃ emb,
    c = create_retrieval_chain
          (as_retriever (PineconeVectorStore index_name emb)
             (lit "similarity") {[ lit "k" := 3%Z ]})
          (create_stuff_documents_chain
             (ChatOpenAI_t (lit "gpt-4o-mini"))
             (ChatPromptTemplate
                [(lit "system", system_prompt out); (lit "human", lit "{input}")])).
Proof.
  unfold run_module, module_body, try_except, mbind, M_bind.
  pose proof (validate_keys_world (boot env out)) as Hw.
  destruct (validate_keys (boot env out)) as [[keys|e] w1] eqn:Hv;
    cbn [snd] in Hw; subst w1.
  - unfold putenv, download_embeddings, from_existing_index, ChatOpenAI.
    cbn [outside boot set_environ].
    destruct (embeddings_loader out) as [emb|e]; [|by cbn].
    destruct (index_binding out index_name emb) as [e|]; [by cbn|].
    cbn [outside set_environ boot].
    destruct (model_client out (lit "gpt-4o-mini")) as [e|]; [by cbn|].
    destruct is_main; cbn; intros [= <-]; (split; [done | by exists emb]).
  - rewrite (validate_keys_raises_RuntimeError _ _ _ Hv).
    by destruct is_main.
Qed.

End chain_built.

(** C8.  The chain the module binds holds a retriever over the index
    "medicalai-chatbot", with search type "similarity" and [k = 3]; and
    whatever requests are served afterwards, [rag_chain] is still that
    chain, retriever included. *)
Theorem retriever_fixed_at_startup
    (is_main : bool) (env : gmap pystr pystr) (out : services) (c : retrieval_chain) :
  rag_chain (run_module is_main (boot env out)) = Some c →
  vs_index_name (r_vectorstore (rc_retriever c)) = lit "medicalai-chatbot"
  ∧ r_search_type (rc_retriever c) = lit "similarity"
  ∧ r_search_kwargs (rc_retriever c) = {[ lit "k" := 3%Z ]}
  ∧ ∀ reqs : list request,
      rag_chain (serve reqs (run_module is_main (boot env out))).2 = Some c.
Proof.
  intros Hc. destruct (run_module_chain _ _ _ _ Hc) as [_ [emb ->]].
  split; [done|]. split; [done|]. split; [done|].
  intros reqs. by rewrite (proj1 (keeps_serve reqs _)).
Qed.

Lemma retriever_fixed_at_startup_sample :
  vs_index_name (r_vectorstore (rc_retriever
    (RetrievalChain
       (VectorStoreRetriever
          (PineconeVectorStore (lit "medicalai-chatbot") (EmbeddingsHandle 1))
          (lit "similarity") {[ lit "k" := 3%Z ]})
       (StuffDocumentsChain
          (ChatOpenAI_t (lit "gpt-4o-mini"))
          (ChatPromptTemplate
             [(lit "system", lit "You are a medical assistant.");
              (lit "human", lit "{input}")]))))) = lit "medicalai-chatbot"
  ∧ ∀ reqs : list request,
      r_search_kwargs <$> (rc_retriever <$>
        rag_chain (serve reqs (Samples.started (Returned ∅))).2)
      = Some {[ lit "k" := 3%Z ]}.
Proof.
  destruct (retriever_fixed_at_startup true Samples.good_env
              (Samples.answering (Returned ∅)) _ started_has_chain)
    as (Hname & _ & _ & Hkeep).
  split; [exact Hname|].
  intros reqs. unfold Samples.started. by rewrite Hkeep.
Defined.

(** C6.  [health] returns status 200 with the JSON object
    [{"status": "ok"}] in every world, whatever the services would answer,
    and leaves the world untouched: it consults nothing.  Once the module
    has started, a GET to /health is answered that way after any requests
    served before it, whatever their outcome. *)
Theorem health_always_ok :
  (∀ w : world,
     respond health w =
       (Returned (Response 200 (Json (JObj [(lit "status", lit "ok")])) None), w))
  ∧ (∀ (is_main : bool) (env : gmap pystr pystr) (out : services)
       (c : retrieval_chain) (reqs : list request) (req : request),
       rag_chain (run_module is_main (boot env out)) = Some c →
       method req = lit "GET" → path req = lit "/health" →
       handle req (serve reqs (run_module is_main (boot env out))).2 =
         (Returned (Answered
            (Response 200 (Json (JObj [(lit "status", lit "ok")])) None)),
          (serve reqs (run_module is_main (boot env out))).2)).
Proof.
  split; [done|].
  intros is_main env out c reqs req Hc Hm Hp.
  destruct (run_module_chain _ _ _ _ Hc) as [Hroutes _].
  pose proof (proj2 (keeps_serve reqs (run_module is_main (boot env out)))) as Hkept.
  rewrite Hroutes in Hkept.
  unfold handle. rewrite Hkept, Hm, Hp.
  assert (find (λ rt, bool_decide (rule rt = lit "/health")) started_routes
          = Some (Route (lit "/health") [lit "GET"] ViewHealth)) as ->
    by (vm_compute; reflexivity).
  cbn [methods view].
  rewrite bool_decide_true by (apply list_elem_of_here).
  reflexivity.
Qed.

Lemma health_always_ok_after_failures :
  handle (Samples.get_ (lit "/health"))
    (serve [Samples.post_get (lit "hi"); Samples.post_get (lit " ")]
       (Samples.started (Raised (PyExc (LibraryError "pinecone.PineconeException")
                                       (StrOk (lit "index unreachable")))))).2
  = (Returned (Answered (Response 200 (Json (JObj [(lit "status", lit "ok")])) None)),
     (serve [Samples.post_get (lit "hi"); Samples.post_get (lit " ")]
        (Samples.started (Raised (PyExc (LibraryError "pinecone.PineconeException")
                                        (StrOk (lit "index unreachable")))))).2).
Proof.
  refine (proj2 health_always_ok true Samples.good_env _ _ _ _ _ _ _).
  - vm_compute. reflexivity.
  - vm_compute. reflexivity.
  - vm_compute. reflexivity.
Defined.

(** * Further properties of the module *)

(** ** Every way a run of the module can end *)

Section run_module_outcomes.
Implicit Types (env : gmap pystr pystr) (out : services) (w : world).

Lemma validate_keys_accepts w p o :
  solid (environ w) (lit "PINECONE_API_KEY") p →
  solid (environ w) (lit "OPENAI_API_KEY") o →
  validate_keys w = (Returned (strip p, strip o), w).
Proof.
  intros [Hp Hps] [Ho Hos]. unfold validate_keys, mbind, M_bind.
  rewrite (require_env_accepts _ _ _ Hp Hps).
  by rewrite (require_env_accepts _ _ _ Ho Hos).
Qed.

(** With both keys accepted, the run is decided by the constructors. *)
Lemma run_module_after_keys is_main env out p o :
  solid env (lit "PINECONE_API_KEY") p →
  solid env (lit "OPENAI_API_KEY") o →
  run_module is_main (boot env out) =
    match wiring out with
    | Raised e => World (republished env p o) [] None None out [] [Traceback e]
    | Returned emb =>
        World (republished env p o) started_routes (Some (built_chain out emb))
              (dev_server is_main) out [] []
    end.
Proof.
  intros Hp Ho.
  unfold run_module, module_body, try_except, mbind, M_bind, wiring.
  rewrite (validate_keys_accepts (boot env out) p o Hp Ho).
  unfold putenv, download_embeddings, from_existing_index, ChatOpenAI.
  cbn [outside boot set_environ fst snd].
  destruct (embeddings_loader out) as [emb|e]; [|done].
  destruct (index_binding out index_name emb) as [e|]; [done|].
  cbn [outside set_environ boot].
  destruct (model_client out (lit "gpt-4o-mini")) as [e|]; [done|].
  by destruct is_main.
Qed.

Lemma run_module_keys_rejected is_main env out name :
  validate_keys (boot env out)
    = (Raised (new_RuntimeError (missing_message name)), boot env out) →
  run_module is_main (boot env out)
  = World env (degraded_routes name) None (dev_server is_main) out []
      [Traceback (new_RuntimeError (missing_message name))].
Proof. apply run_module_rejected. Qed.

(** The keys are either both accepted or one of them is rejected. *)
Lemma keys_accepted_or_rejected env :
  (∃ p o, solid env (lit "PINECONE_API_KEY") p ∧ solid env (lit "OPENAI_API_KEY") o)
  ∨ unset_or_blank env (lit "PINECONE_API_KEY")
  ∨ unset_or_blank env (lit "OPENAI_API_KEY").
Proof.
  destruct (unset_or_blank_dec env (lit "PINECONE_API_KEY")) as [Hp | (p & Hp)];
    [by right; left|].
  destruct (unset_or_blank_dec env (lit "OPENAI_API_KEY")) as [Ho | (o & Ho)];
    [by right; right|].
  left. by exists p, o.
Qed.

Lemma solid_not_blank v : all_space v = false → all_space (strip v) = false.
Proof.
  intros Hv. destruct (all_space (strip v)) eqn:E; [|done].
  apply strip_nil_iff in E. rewrite strip_idem in E.
  apply strip_nil_iff in E. congruence.
Qed.

Lemma key_names_differ : lit "PINECONE_API_KEY" ≠ lit "OPENAI_API_KEY".
Proof. vm_compute. discriminate. Qed.

End run_module_outcomes.



(** X2.  When the keys are accepted but one of the constructors raises
    (loading the embeddings, binding the index, or creating the model
    client, in that order), the exception is not caught, whatever its
    class: the keys have been written back, but no chain is bound, no route
    is registered, the server is never started even under [__main__], and
    so no request finds a route, /health included. *)
Theorem startup_constructor_failure
    (is_main : bool) (env : gmap pystr pystr) (out : services)
    (p o : pystr) (e : pyexc) :
  solid env (lit "PINECONE_API_KEY") p →
  solid env (lit "OPENAI_API_KEY") o →
  embeddings_loader out = Raised e
  ∨ (∃ emb, embeddings_loader out = Returned emb
            ∧ index_binding out index_name emb = Some e)
  ∨ (∃ emb, embeddings_loader out = Returned emb
            ∧ index_binding out index_name emb = None
            ∧ model_client out (lit "gpt-4o-mini") = Some e) →
  run_module is_main (boot env out)
    = World (republished env p o) [] None None out [] [Traceback e]
  ∧ ∀ req, handle req (run_module is_main (boot env out))
           = (Returned NotFound, run_module is_main (boot env out)).
Proof.
  intros Hp Ho Hfail.
  assert (run_module is_main (boot env out)
          = World (republished env p o) [] None None out [] [Traceback e]) as ->.
  { rewrite (run_module_after_keys is_main env out p o Hp Ho). unfold wiring.
    destruct Hfail as [-> | [(emb & -> & ->) | (emb & -> & -> & ->)]]; done. }
  split; [done|]. by intros req.
Qed.

Lemma startup_constructor_failure_index_missing :
  run_module true
    (boot Samples.good_env
       (Services (lit "prompt") (Returned (EmbeddingsHandle 1))
          (λ _ _, Some (new_RuntimeError (lit "index not found")))
          (λ _, None) (λ _ _, Returned ∅)))
  = World (republished Samples.good_env (lit " pc-123 ") (lit "sk-456"))
      [] None None
      (Services (lit "prompt") (Returned (EmbeddingsHandle 1))
         (λ _ _, Some (new_RuntimeError (lit "index not found")))
         (λ _, None) (λ _ _, Returned ∅))
      [] [Traceback (new_RuntimeError (lit "index not found"))].
Proof.
  refine (proj1 (startup_constructor_failure true Samples.good_env _
                   (lit " pc-123 ") (lit "sk-456")
                   (new_RuntimeError (lit "index not found")) _ _ _)).
  - split; vm_compute; reflexivity.
  - split; vm_compute; reflexivity.
  - right. left. exists (EmbeddingsHandle 1). split; reflexivity.
Defined.



(** X4.  The server is started with host "0.0.0.0", port 8080 and debug on,
    and only under [__main__] once at least one route is registered: an
    import never starts it, and neither does a run whose constructors
    failed. *)
Theorem server_started_only_as_main
    (is_main : bool) (env : gmap pystr pystr) (out : services) :
  server (run_module is_main (boot env out))
  = match routes (run_module is_main (boot env out)) with
    | [] => None
    | _ :: _ => if is_main then Some (RunConfig (lit "0.0.0.0") 8080 true) else None
    end.
Proof.
  destruct (keys_accepted_or_rejected env) as [(p & o & Hp & Ho) | Hbad].
  - rewrite (run_module_after_keys is_main env out p o Hp Ho).
    by destruct (wiring out).
  - destruct (validate_keys_rejects (boot env out) Hbad) as (bad & _ & _ & Hv).
    by rewrite (run_module_keys_rejected is_main env out bad Hv).
Qed.

Lemma server_started_only_as_main_import :
  server (run_module false (boot Samples.good_env (Samples.answering (Returned ∅))))
  = None.
Proof.
  exact (server_started_only_as_main false Samples.good_env
           (Samples.answering (Returned ∅))).
Defined.

(** X5.  The keys are checked in source order and the first rejected one
    ends the check: a rejected PINECONE_API_KEY is the one reported
    whatever OPENAI_API_KEY holds, and when only OPENAI_API_KEY is rejected
    the accepted PINECONE_API_KEY has not been written back, so the
    environment is exactly as it was. *)
Theorem first_rejected_key_is_reported
    (is_main : bool) (env : gmap pystr pystr) (out : services) :
  (unset_or_blank env (lit "PINECONE_API_KEY") →
     run_module is_main (boot env out)
     = World env (degraded_routes (lit "PINECONE_API_KEY")) None
         (dev_server is_main) out []
         [Traceback (new_RuntimeError (missing_message (lit "PINECONE_API_KEY")))])
  ∧ (∀ p, solid env (lit "PINECONE_API_KEY") p →
     unset_or_blank env (lit "OPENAI_API_KEY") →
     run_module is_main (boot env out)
     = World env (degraded_routes (lit "OPENAI_API_KEY")) None
         (dev_server is_main) out []
         [Traceback (new_RuntimeError (missing_message (lit "OPENAI_API_KEY")))]).
Proof.
  split.
  - intros Hp. apply run_module_keys_rejected.
    unfold validate_keys, mbind, M_bind. by rewrite require_env_rejects.
  - intros p [Hp Hps] Ho. apply run_module_keys_rejected.
    unfold validate_keys, mbind, M_bind.
    rewrite (require_env_accepts _ (boot env out) p Hp Hps).
    by rewrite require_env_rejects.
Qed.

Lemma first_rejected_key_is_reported_both_unset :
  run_module true (boot ∅ (Samples.answering (Returned ∅)))
  = World ∅ (degraded_routes (lit "PINECONE_API_KEY")) None
      (dev_server true) (Samples.answering (Returned ∅)) []
      [Traceback (new_RuntimeError (missing_message (lit "PINECONE_API_KEY")))].
Proof.
  apply (proj1 (first_rejected_key_is_reported true ∅ (Samples.answering (Returned ∅)))).
  left. vm_compute. reflexivity.
Defined.



(** X7.  Starting again from the environment a complete start left behind
    (what the debug reloader's second import does) accepts the keys it
    wrote back, changes the environment no further and builds the same
    chain and routes. *)
Theorem restart_is_stable
    (is_main is_main' : bool) (env : gmap pystr pystr) (out : services)
    (c : retrieval_chain) :
  rag_chain (run_module is_main (boot env out)) = Some c →
  environ (run_module is_main' (boot (environ (run_module is_main (boot env out))) out))
    = environ (run_module is_main (boot env out))
  ∧ rag_chain (run_module is_main' (boot (environ (run_module is_main (boot env out))) out))
    = Some c
  ∧ routes (run_module is_main' (boot (environ (run_module is_main (boot env out))) out))
    = routes (run_module is_main (boot env out)).
Proof.
  destruct (keys_accepted_or_rejected env) as [(p & o & Hp & Ho) | Hbad].
  - rewrite (run_module_after_keys is_main env out p o Hp Ho).
    destruct (wiring out) as [emb|e] eqn:Hwire; [|done].
    cbn [rag_chain environ routes]. intros [= <-].
    assert (solid (republished env p o) (lit "PINECONE_API_KEY") (strip p)) as Hp'.
    { split; [|apply solid_not_blank, Hp]. unfold republished.
      rewrite lookup_insert_ne by (intros H; by apply key_names_differ).
      by rewrite lookup_insert_eq. }
    assert (solid (republished env p o) (lit "OPENAI_API_KEY") (strip o)) as Ho'.
    { split; [|apply solid_not_blank, Ho]. unfold republished.
      by rewrite lookup_insert_eq. }
    rewrite (run_module_after_keys is_main' _ out _ _ Hp' Ho'), Hwire.
    cbn [rag_chain environ routes]. split; [|done].
    unfold republished at 1. rewrite !strip_idem.
    rewrite (insert_id (republished env p o)) by apply Hp'.
    by rewrite insert_id by apply Ho'.
  - destruct (validate_keys_rejects (boot env out) Hbad) as (bad & _ & _ & Hv).
    by rewrite (run_module_keys_rejected is_main env out bad Hv).
Qed.

Lemma restart_is_stable_sample :
  environ (run_module false
             (boot (environ (Samples.started (Returned ∅)))
                   (Samples.answering (Returned ∅))))
    = environ (Samples.started (Returned ∅))
  ∧ rag_chain (run_module false
                 (boot (environ (Samples.started (Returned ∅)))
                       (Samples.answering (Returned ∅))))
    = rag_chain (Samples.started (Returned ∅)).
Proof.
  destruct (restart_is_stable true false Samples.good_env
              (Samples.answering (Returned ∅)) _ started_has_chain)
    as (Henv & Hchain & _).
  split; [exact Henv|]. rewrite started_has_chain. exact Hchain.
Defined.

(** ** What the views may change *)

Section frame_facts.
Implicit Types (w : world) (n m : nat).

Lemma within_refl n w : within n w w.
Proof.
  repeat split; exists []; rewrite app_nil_r; (split; [done | cbn; lia]).
Qed.

Lemma within_trans n m w1 w2 w3 :
  within n w1 w2 → within m w2 w3 → within (n + m) w1 w3.
Proof.
  intros (He & Hr & Hc & Hs & Ho & (li & Hi & Hli) & (lc & Hco & Hlc))
         (He' & Hr' & Hc' & Hs' & Ho' & (li' & Hi' & Hli') & (lc' & Hco' & Hlc')).
  repeat split; try congruence.
  - exists (li ++ li'). rewrite Hi', Hi, app_assoc, length_app. split; [done | lia].
  - exists (lc ++ lc'). rewrite Hco', Hco, app_assoc, length_app. split; [done | lia].
Qed.

Lemma within_mono n m w w' : (n ≤ m)%nat → within n w w' → within m w w'.
Proof.
  intros Hle (He & Hr & Hc & Hs & Ho & (li & Hi & Hli) & (lc & Hco & Hlc)).
  repeat split; try done; [exists li | exists lc]; (split; [done | lia]).
Qed.

Lemma within_invocation arg w : within 1 w (set_invocations (λ l, l ++ [arg]) w).
Proof.
  repeat split; [exists [arg] | exists []]; cbn; rewrite ?app_nil_r;
    (split; [done | lia]).
Qed.

Lemma within_traceback n e w :
  within n w (set_console (λ c, c ++ [Traceback e]) w) ↔ (1 ≤ n)%nat.
Proof.
  split.
  - intros (_ & _ & _ & _ & _ & _ & (l & Hl & Hlen)). cbn in Hl.
    apply app_inv_head in Hl. subst l. exact Hlen.
  - intros Hn. repeat split; [exists [] | exists [Traceback e]]; cbn;
      rewrite ?app_nil_r; (split; [done | lia]).
Qed.

(** An invocation costs one entry of the invocation log at most, and
    prints nothing. *)
Lemma invoke_world arg w :
  (invoke arg w).2 = w ∨ (invoke arg w).2 = set_invocations (λ l, l ++ [arg]) w.
Proof. unfold invoke. destruct (rag_chain w); [by right | by left]. Qed.

Lemma chat_except_world e w :
  (chat_except e w).2 = set_console (λ c, c ++ [Traceback e]) w.
Proof.
  unfold chat_except, mbind, M_bind. cbn. by destruct (exc_str e).
Qed.

(** The world [chat] leaves: that of the invocation, with one traceback
    more when the [except] clause ran. *)
Lemma chat_after_world r :
  (chat_after r).2 = r.2
  ∨ ∃ e, (chat_after r).2 = set_console (λ c, c ++ [Traceback e]) r.2.
Proof.
  destruct r as [[result|e] w1]; unfold chat_after; cbn [snd].
  - destruct (py_str _) as [s|e]; [by left|].
    destruct (isinstance e Exception); [|by left].
    right. exists e. apply chat_except_world.
  - destruct (isinstance e Exception); [|by left].
    right. exists e. apply chat_except_world.
Qed.

Lemma costs_chat request_form : costs 1 (chat request_form).
Proof.
  intros w.
  destruct (decide (strip (form_get request_form (lit "msg") (lit "")) = []))
    as [Hblank|Hmsg].
  - unfold chat. rewrite Hblank. apply within_refl.
  - rewrite chat_nonblank by done.
    set (arg := {[ lit "input" := _ ]}).
    assert (within 1 w (invoke arg w).2
            ∧ console (invoke arg w).2 = console w) as [Hinv Hcon].
    { destruct (invoke_world arg w) as [-> | ->];
        [split; [apply within_refl | done]
        | split; [apply within_invocation | done]]. }
    destruct (chat_after_world (invoke arg w)) as [-> | [e ->]]; [done|].
    destruct Hinv as (He & Hr & Hc & Hs & Ho & Hi & _).
    repeat split; try done.
    exists [Traceback e]. unfold set_console. cbn [console length].
    rewrite Hcon. split; [done | lia].
Qed.

Lemma costs_call_view v req : costs 1 (call_view v req).
Proof.
  destruct v; cbn [call_view]; [| | apply costs_chat |];
    intros w; try apply within_refl.
  unfold missing_keys, mbind, M_bind, str_.
  destruct (exc_str e); apply within_refl.
Qed.

Lemma costs_handle req : costs 1 (handle req).
Proof.
  intros w. unfold handle. destruct (find _ _) as [rt|]; [|apply within_refl].
  destruct (bool_decide _); [|apply within_refl].
  pose proof (costs_call_view (view rt) req w) as Hv.
  unfold try_except, respond, mbind, M_bind.
  destruct (call_view (view rt) req w) as [[rv|e] w1]; cbn [snd] in Hv |- *;
    [done|].
  by destruct (isinstance e Exception).
Qed.

Lemma costs_serve reqs : costs (length reqs) (serve reqs).
Proof.
  induction reqs as [|req rest IH]; intros w; cbn [serve length].
  - apply within_refl.
  - pose proof (costs_handle req w) as Hh. unfold mbind, M_bind.
    destruct (handle req w) as [[r|e] w1]; cbn [snd] in Hh |- *.
    + specialize (IH w1).
      destruct (serve rest w1) as [[rs|e] w2]; cbn [snd] in IH |- *;
        apply (within_trans 1 (length rest) w w1 w2 Hh IH).
    + apply (within_mono 1); [lia | done].
Qed.

End frame_facts.

(** X8.  Whatever the form and the services, a response of [chat] has one
    of three shapes: 400 with the fixed message and the world untouched;
    200 with a body that is a trimmed string, nothing printed, no
    mimetype set; or 500, text/plain, "Error: " and the text of an
    [Exception] instance whose traceback was just printed.  A traceback is
    never printed beside a 200 or a 400. *)
Theorem chat_response_shapes
    (request_form : multidict) (w w' : world) (r : response) :
  respond (chat request_form) w = (Returned r, w') →
  (r = Response 400 (Text (lit "Please type a message.")) None ∧ w' = w)
  ∨ (∃ s, r = Response 200 (Text (strip s)) None ∧ console w' = console w)
  ∨ (∃ e t, r = Response 500 (Text (lit "Error: " ++ t)) (Some (lit "text/plain"))
            ∧ isinstance e Exception = true
            ∧ exc_str e = StrOk t
            ∧ console w' = console w ++ [Traceback e]).
Proof.
  unfold respond, mbind, M_bind.
  destruct (decide (strip (form_get request_form (lit "msg") (lit "")) = []))
    as [Hblank|Hmsg].
  - unfold chat. rewrite Hblank. cbn. intros [= <- <-]. by left.
  - rewrite chat_nonblank by done.
    set (arg := {[ lit "input" := _ ]}).
    assert (console (invoke arg w).2 = console w) as Hcon
      by (destruct (invoke_world arg w) as [-> | ->]; done).
    assert (∀ e w1, console w1 = console w →
              match (if isinstance e Exception then chat_except e w1
                     else (Raised e, w1)) with
              | (Returned a, w2) => (Returned (make_response a), w2)
              | (Raised e0, w2) => (Raised e0, w2)
              end = (Returned r, w') →
              ∃ e t, r = Response 500 (Text (lit "Error: " ++ t)) (Some (lit "text/plain"))
                     ∧ isinstance e Exception = true
                     ∧ exc_str e = StrOk t
                     ∧ console w' = console w ++ [Traceback e]) as Hexcept.
    { intros e w1 Hw1. destruct (isinstance e Exception) eqn:Hcls; [|done].
      destruct (exc_str e) as [t|e'] eqn:Ht.
      - rewrite (chat_except_caught e t w1 Ht). cbn. intros [= <- <-].
        exists e, t. by rewrite <- Hw1.
      - by rewrite (chat_except_str_fails e e' w1 Ht). }
    destruct (invoke arg w) as [[result|e] w1]; unfold chat_after; cbn [snd] in Hcon.
    + destruct (py_str _) as [s|e].
      * cbn. intros [= <- <-]. right. left. by exists s.
      * intros H. right. right. by apply (Hexcept e w1).
    + intros H. right. right. by apply (Hexcept e w1).
Qed.

Lemma chat_response_shapes_quota :
  ∃ e t, lit "Error: quota exceeded" = lit "Error: " ++ t
         ∧ isinstance e Exception = true
         ∧ exc_str e = StrOk t.
Proof.
  destruct (chat_response_shapes [(lit "msg", lit "hi")]
              (Samples.started (Raised (PyExc (LibraryError "openai.RateLimitError")
                                              (StrOk (lit "quota exceeded")))))
              (set_console
                 (λ c, c ++ [Traceback (PyExc (LibraryError "openai.RateLimitError")
                                              (StrOk (lit "quota exceeded")))])
                 (set_invocations (λ l, l ++ [Samples.hi_input])
                    (Samples.started (Raised (PyExc (LibraryError "openai.RateLimitError")
                                                    (StrOk (lit "quota exceeded")))))))
              (Response 500 (Text (lit "Error: quota exceeded")) (Some (lit "text/plain"))))
    as [[H _] | [(s & H & _) | (e & t & H & Hcls & Ht & _)]].
  - vm_compute. reflexivity.
  - discriminate H.
  - discriminate H.
  - exists e, t. split; [congruence | by split].
Defined.

(** X9.  [chat] changes nothing but the two logs: the environment, the
    routes, the chain, the server and the services are as before; the
    chain is invoked at most once, and then with the trimmed message; at
    most one traceback is printed. *)
Theorem chat_changes_logs_only (request_form : multidict) (w : world) :
  environ (chat request_form w).2 = environ w
  ∧ routes (chat request_form w).2 = routes w
  ∧ rag_chain (chat request_form w).2 = rag_chain w
  ∧ server (chat request_form w).2 = server w
  ∧ outside (chat request_form w).2 = outside w
  ∧ (invocations (chat request_form w).2 = invocations w
     ∨ invocations (chat request_form w).2
       = invocations w
         ++ [{[ lit "input" :=
                  PyStr (strip (form_get request_form (lit "msg") (lit ""))) ]}])
  ∧ (console (chat request_form w).2 = console w
     ∨ ∃ e, console (chat request_form w).2 = console w ++ [Traceback e]).
Proof.
  destruct (decide (strip (form_get request_form (lit "msg") (lit "")) = []))
    as [Hblank|Hmsg].
  - unfold chat. rewrite Hblank. cbn. repeat split; by left.
  - rewrite chat_nonblank by done.
    set (arg := {[ lit "input" := _ ]}).
    destruct (chat_after_world (invoke arg w)) as [-> | [e ->]];
      destruct (invoke_world arg w) as [-> | ->]; cbn;
      repeat split; eauto.
Qed.

(** X10.  Serving [n] requests, whatever they are and however they end,
    changes nothing but the two logs, and adds at most [n] chain
    invocations and at most [n] tracebacks: a request is never retried. *)
Theorem serving_costs_one_invocation_each (reqs : list request) (w : world) :
  within (length reqs) w (serve reqs w).2.
Proof. apply costs_serve. Qed.

(** ** Routing after a complete start *)

Section routing_facts.

Lemma routes_after_start is_main env out c reqs :
  rag_chain (run_module is_main (boot env out)) = Some c →
  routes (serve reqs (run_module is_main (boot env out))).2 = started_routes.
Proof.
  intros Hc. destruct (run_module_chain _ _ _ _ Hc) as [Hroutes _].
  by rewrite (proj2 (keeps_serve reqs _)).
Qed.

Lemma find_started_route (p : pystr) :
  find (λ rt, bool_decide (rule rt = p)) started_routes
  = if decide (p = lit "/") then Some (Route (lit "/") [lit "GET"] ViewIndex)
    else if decide (p = lit "/get") then Some (Route (lit "/get") [lit "POST"] ViewChat)
    else if decide (p = lit "/health") then Some (Route (lit "/health") [lit "GET"] ViewHealth)
    else None.
Proof.
  unfold started_routes. cbn [find rule].
  destruct (decide (p = lit "/")) as [->|H1]; [by rewrite bool_decide_true|].
  rewrite bool_decide_false by congruence.
  destruct (decide (p = lit "/get")) as [->|H2]; [by rewrite bool_decide_true|].
  rewrite bool_decide_false by congruence.
  destruct (decide (p = lit "/health")) as [->|H3]; [by rewrite bool_decide_true|].
  by rewrite bool_decide_false by congruence.
Qed.

End routing_facts.





Section end_to_end.

Lemma run_module_outside is_main env out :
  outside (run_module is_main (boot env out)) = out.
Proof.
  destruct (keys_accepted_or_rejected env) as [(p & o & Hp & Ho) | Hbad].
  - rewrite (run_module_after_keys is_main env out p o Hp Ho).
    by destruct (wiring out).
  - destruct (validate_keys_rejects (boot env out) Hbad) as (bad & _ & _ & Hv).
    by rewrite (run_module_keys_rejected is_main env out bad Hv).
Qed.

End end_to_end.

(** X13.  From start to answer: once the module has started, a POST to
    /get with a non-blank message, at any point of the serving, invokes the
    chain once with the trimmed message; when the services answer with a
    string under "answer", the response is 200 with that string trimmed,
    and the invocation is the only trace the request leaves. *)
Theorem post_get_answers_after_start
    (is_main : bool) (env : gmap pystr pystr) (out : services)
    (c : retrieval_chain) (reqs : list request) (req : request)
    (result : pydict) (answer : pystr) :
  rag_chain (run_module is_main (boot env out)) = Some c →
  method req = lit "POST" → path req = lit "/get" →
  strip (form_get (form req) (lit "msg") (lit "")) ≠ [] →
  chain_answer out
    (invocations (serve reqs (run_module is_main (boot env out))).2)
    {[ lit "input" := PyStr (strip (form_get (form req) (lit "msg") (lit ""))) ]}
  = Returned result →
  result !! lit "answer" = Some (PyStr answer) →
  handle req (serve reqs (run_module is_main (boot env out))).2
  = (Returned (Answered (Response 200 (Text (strip answer)) None)),
     set_invocations
       (λ l, l ++ [{[ lit "input" :=
                        PyStr (strip (form_get (form req) (lit "msg") (lit ""))) ]}])
       (serve reqs (run_module is_main (boot env out))).2).
Proof.
  intros Hc Hm Hp Hmsg Hanswer Hkey.
  pose proof (costs_serve reqs (run_module is_main (boot env out)))
    as (_ & _ & Hchain & _ & Hout & _).
  rewrite Hc in Hchain. rewrite run_module_outside in Hout.
  unfold handle.
  rewrite (routes_after_start _ _ _ c reqs Hc), Hm, Hp, find_started_route.
  rewrite decide_False by (vm_compute; discriminate).
  rewrite decide_True by done. cbn [methods view call_view].
  rewrite bool_decide_true by (apply list_elem_of_here).
  unfold try_except, respond, mbind, M_bind.
  rewrite chat_nonblank by done.
  unfold invoke. rewrite Hchain, Hout, Hanswer.
  unfold chat_after, dict_get. by rewrite Hkey.
Qed.

Lemma post_get_answers_after_start_migraine :
  handle (Samples.post_get (lit " What is a migraine? "))
    (serve [Samples.get_ (lit "/health")]
       (Samples.started (Returned {[ lit "answer" := PyStr Samples.migraine_answer ]}))).2
  = (Returned (Answered (Response 200 (Text (strip Samples.migraine_answer)) None)),
     set_invocations (λ l, l ++ [Samples.migraine_input])
       (serve [Samples.get_ (lit "/health")]
          (Samples.started (Returned {[ lit "answer" := PyStr Samples.migraine_answer ]}))).2).
Proof.
  refine (post_get_answers_after_start true Samples.good_env
            (Samples.answering (Returned {[ lit "answer" := PyStr Samples.migraine_answer ]}))
            _ [Samples.get_ (lit "/health")]
            (Samples.post_get (lit " What is a migraine? "))
            {[ lit "answer" := PyStr Samples.migraine_answer ]}
            Samples.migraine_answer _ _ _ _ _ _).
  - vm_compute. reflexivity.
  - vm_compute. reflexivity.
  - vm_compute. reflexivity.
  - vm_compute. discriminate.
  - vm_compute. reflexivity.
  - vm_compute. reflexivity.
Defined.
